(** * NDJSON writer (src/url/ndjson_writer.py): score aggregation

    A shallow embedding of [NdjsonWriter.write].  Python floats are IEEE-754
    binary64 numbers and are represented by Rocq's primitive floats, whose
    operations are the same binary64 operations; [round(x, 3)] is the
    correctly rounded decimal rounding of CPython.  The local variables of
    [write] ([all_metrics], [total_latency]) are threaded through a small
    state-and-exception monad so that a [try]/[except] block keeps the
    assignments made before the exception was raised, as Python does. *)

From Stdlib Require Import ZArith Floats Lia.
From stdpp Require Import gmap strings list fin_maps.

Set Warnings "-inexact-float".
Open Scope Z_scope.

(** * The program *)

(** ** Python floats *)

Module PyFloat.

(** [a / d] rounded to the nearest integer, ties to the even one
    ([d] positive). *)
Definition round_half_even_div (a d : Z) : Z :=
  let q := a / d in
  let r := a mod d in
  match 2 * r ?= d with
  | Lt => q
  | Gt => q + 1
  | Eq => if Z.even q then q else q + 1
  end.

(** The number of thousandths nearest to [m * 2^e]. *)
Definition thousandths (m : positive) (e : Z) : Z :=
  match e with
  | Zneg k => round_half_even_div (Zpos m * 1000) (2 ^ Zpos k)
  | _ => Zpos m * 1000 * 2 ^ e
  end.

(** [round(x, 3)] on the decoded float: non-finite values and zeros round
    to themselves; a finite value is rounded to the nearest multiple of
    [1/1000] (ties to even, on the exact binary value), and that decimal
    is converted back to the nearest binary64 number; the sign is kept. *)
Definition SFround3 (x : spec_float) : spec_float :=
  match x with
  | S754_finite s m e =>
      match thousandths m e with
      | Zpos n => SF64div (S754_finite s n 0) (S754_finite false 1000 0)
      | _ => S754_zero s
      end
  | _ => x
  end.

(** Python's [round(x, 3)] for a float [x]. *)
Definition round3 (x : float) : float := SF2Prim (SFround3 (Prim2SF x)).

(** Python's [float(n)] for an int [n]: the nearest binary64 number, or
    nothing when [n] is too large ([OverflowError]). *)
Definition of_int (n : Z) : option float :=
  match binary_normalize prec emax n 0 false with
  | S754_infinity _ => None
  | sf => Some (SF2Prim sf)
  end.


End PyFloat.

Import PyFloat.

(** ** Python values, exceptions *)

(** What a metric evaluator may leave in the [score] attribute: [None], a
    float, an int, or an object that [float()] rejects with an exception (a
    list, a dict, a string that is not a number). *)
Inductive pyval : Type :=
  | PyNone
  | PyFloat (f : float)
  | PyInt (n : Z)
  | PyObj.

(** Exceptions derived from [Exception], the ones [except Exception]
    catches. *)
Inductive exn : Type :=
  | TypeError
  | OverflowError
  | AttributeError
  | KeyError
  | EvaluatorError (msg : string).

Inductive result (A : Type) : Type :=
  | Ok (a : A)
  | Raised (e : exn).
Arguments Ok {A} a.
Arguments Raised {A} e.

(** Python's [float(v)]. *)
Definition py_float (v : pyval) : result float :=
  match v with
  | PyNone => Raised TypeError
  | PyFloat f => Ok f
  | PyInt n => match of_int n with Some f => Ok f | None => Raised OverflowError end
  | PyObj => Raised TypeError
  end.

(** Modelled from the spec: [MetricResult] of [src.metrics_framework], which
    is not part of the sources at hand: a score (a float, or absent) and a
    latency in milliseconds (an integer, or absent).  The score is kept as a
    Python value because [write] converts it with [float(...)]. *)
Record MetricResult : Type := {
  score : pyval;
  latency_ms : option Z
}.

(** The outcome of [evaluator.calculate(url)]: an exception, [None], or a
    [MetricResult]. *)
Definition outcome : Type := result (option MetricResult).
Definition evaluator : Type := string -> outcome.

(** [res.score] and [res.latency_ms]; [None] has no such attribute. *)
Definition get_score (res : option MetricResult) : result pyval :=
  match res with
  | Some r => Ok (score r)
  | None => Raised AttributeError
  end.

Definition get_latency_ms (res : option MetricResult) : result (option Z) :=
  match res with
  | Some r => Ok (latency_ms r)
  | None => Raised AttributeError
  end.

(** [l if l else 0] for a latency: [None] and [0] are falsy. *)
Definition latency_or_zero (l : option Z) : Z :=
  match l with
  | Some (Zpos _ as z) | Some (Zneg _ as z) => z
  | _ => 0
  end.

(** ** The writer object, its output stream, the local state of [write] *)

Inductive json : Type :=
  | JStr (s : string)
  | JFloat (f : float)
  | JInt (n : Z).

(** A Python dict literal keeps its keys in the order written. *)
Definition record : Type := list (string * json).

(** The output stream receives [json.dumps(record) + "\n"] and is then
    flushed.  A line is represented by the record it serialises. *)
Inductive event : Type :=
  | EvWrite (line : record)
  | EvFlush.

Record NdjsonWriter : Type := {
  out : list event;                     (* what self.out has received *)
  calc_metrics : gmap string evaluator; (* self.calc.metrics *)
  perf_metric : evaluator               (* self.perf_metric.calculate *)
}.

Record ModelItem : Type := { model_url : string }.

Record locals : Type := {
  all_metrics : gmap string float;
  total_latency : Z
}.

Definition locals0 : locals := {| all_metrics := ∅; total_latency := 0 |}.

(** Statements: they update the locals and may raise; the locals reached
    when the exception is raised are kept. *)
Definition M (A : Type) : Type := locals -> locals * result A.

#[global] Instance M_ret : MRet M := fun A a st => (st, Ok a).
#[global] Instance M_bind : MBind M := fun A B k m st =>
  match m st with
  | (st', Ok a) => k a st'
  | (st', Raised e) => (st', Raised e)
  end.

Definition lift {A : Type} (r : result A) : M A := fun st => (st, r).

(** [try: body except Exception: handler] *)
Definition try_except (body handler : M unit) : M unit := fun st =>
  match body st with
  | (st', Ok u) => (st', Ok u)
  | (st', Raised _) => handler st'
  end.

(** [all_metrics[name] = v] *)
Definition set_metric (name : string) (v : float) : M unit := fun st =>
  ({| all_metrics := <[name := v]> (all_metrics st);
      total_latency := total_latency st |}, Ok tt).

(** [total_latency += n] *)
Definition add_latency (n : Z) : M unit := fun st =>
  ({| all_metrics := all_metrics st;
      total_latency := total_latency st + n |}, Ok tt).

(** [self.calc.metrics[name].calculate(url)] *)
Definition calculate (self : NdjsonWriter) (name url : string) : outcome :=
  match calc_metrics self !! name with
  | Some ev => ev url
  | None => Raised KeyError
  end.

(** ** The eight metric blocks of [write] *)

(** The body of the [try] used for [ramp_up_time], [bus_factor],
    [size_score], [dataset_and_code_score], [dataset_quality] and
    [code_quality]; the six blocks differ in the metric name only:

      res = self.calc.metrics[name].calculate(item.model_url)
      all_metrics[name] = round(float(res.score), 3) if res.score is not None else 0.0
      total_latency += res.latency_ms if res.latency_ms else 0 *)
Definition guarded_body (self : NdjsonWriter) (name : string) (item : ModelItem) : M unit :=
  res ← lift (calculate self name (model_url item));
  s ← lift (get_score res);
  v ← match s with
      | PyNone => mret 0%float
      | _ => f ← lift (py_float s); mret (round3 f)
      end;
  set_metric name v;;
  l ← lift (get_latency_ms res);
  add_latency (latency_or_zero l).

(** The body of the [try] for [license]: the score is converted without a
    test for [None]. *)
Definition license_body (self : NdjsonWriter) (item : ModelItem) : M unit :=
  res ← lift (calculate self "license" (model_url item));
  s ← lift (get_score res);
  f ← lift (py_float s);
  set_metric "license" (round3 f);;
  l ← lift (get_latency_ms res);
  add_latency (latency_or_zero l).

(** The body of the [try] for [performance_claims]:

      pc_res = self.perf_metric.calculate(item.model_url)
      score = float(pc_res.score) if pc_res and pc_res.score is not None else 0.0
      all_metrics["performance_claims"] = 1.0 if score >= 0.5 else 0.0
      total_latency += pc_res.latency_ms if pc_res and pc_res.latency_ms else 0 *)
Definition performance_claims_body (self : NdjsonWriter) (item : ModelItem) : M unit :=
  pc_res ← lift (perf_metric self (model_url item));
  sc ← match pc_res with
       | Some r =>
           match score r with
           | PyNone => mret 0%float
           | s => lift (py_float s)
           end
       | None => mret 0%float
       end;
  set_metric "performance_claims" (if PrimFloat.leb 0.5 sc then 1%float else 0%float);;
  add_latency (match pc_res with
               | Some r => latency_or_zero (latency_ms r)
               | None => 0
               end).

(** The [try] body of the block of a metric name. *)
Definition body_of (self : NdjsonWriter) (name : string) (item : ModelItem) : M unit :=
  if decide (name = "license") then license_body self item
  else if decide (name = "performance_claims") then performance_claims_body self item
  else guarded_body self name item.

(** A whole block: on any exception the metric is set to [0.0]. *)
Definition block (self : NdjsonWriter) (name : string) (item : ModelItem) : M unit :=
  try_except (body_of self name item) (set_metric name 0%float).

(** Lines 23-89: the eight blocks, in the order of the source. *)
Definition collect (self : NdjsonWriter) (item : ModelItem) : M unit :=
  try_except (guarded_body self "ramp_up_time" item) (set_metric "ramp_up_time" 0%float);;
  try_except (guarded_body self "bus_factor" item) (set_metric "bus_factor" 0%float);;
  try_except (license_body self item) (set_metric "license" 0%float);;
  try_except (performance_claims_body self item) (set_metric "performance_claims" 0%float);;
  try_except (guarded_body self "size_score" item) (set_metric "size_score" 0%float);;
  try_except (guarded_body self "dataset_and_code_score" item)
             (set_metric "dataset_and_code_score" 0%float);;
  try_except (guarded_body self "dataset_quality" item) (set_metric "dataset_quality" 0%float);;
  try_except (guarded_body self "code_quality" item) (set_metric "code_quality" 0%float).

(** ** The weighted net score *)

Definition weights : list (string * float) :=
  [ ("ramp_up_time", 0.15%float);
    ("bus_factor", 0.10%float);
    ("performance_claims", 0.15%float);
    ("license", 0.15%float);
    ("size_score", 0.15%float);
    ("dataset_and_code_score", 0.10%float);
    ("dataset_quality", 0.10%float);
    ("code_quality", 0.10%float) ].

(** One turn of the loop over [weights.items()]; the accumulator is
    [(net_score, total_weight)]. *)
Definition weigh (metrics : gmap string float) (acc : float * float)
    (mw : string * float) : float * float :=
  match metrics !! mw.1 with
  | Some v => ((acc.1 + v * mw.2)%float, (acc.2 + mw.2)%float)
  | None => acc
  end.

Definition weighted_sums (metrics : gmap string float) : float * float :=
  fold_left (weigh metrics) weights (0%float, 0%float).

Definition total_weight (metrics : gmap string float) : float :=
  (weighted_sums metrics).2.

(** [round(net_score / total_weight, 3) if total_weight > 0 else 0.0] *)
Definition net_score (metrics : gmap string float) : float :=
  let '(net, total) := weighted_sums metrics in
  if PrimFloat.ltb 0 total then round3 (net / total) else 0%float.

(** ** The record and [write] *)

(** [all_metrics.get(name, 0.0)] *)
Definition get_metric (metrics : gmap string float) (name : string) : float :=
  default 0%float (metrics !! name).

(** [x or y] on an optional string: [None] and the empty string are falsy. *)
Definition or_else (x : option string) (y : string) : string :=
  match x with
  | Some (String _ _ as s) => s
  | _ => y
  end.

Section Write.

(** [_hf_model_id_from_url] of [src.scoring], the identity resolver: an
    identifier, or [None]. *)
Variable _hf_model_id_from_url : string -> option string.

Definition build_record (item : ModelItem) (st : locals) : record :=
  let metrics := all_metrics st in
  [ ("name", JStr (or_else (_hf_model_id_from_url (model_url item)) (model_url item)));
    ("category", JStr "MODEL");
    ("NET_SCORE", JFloat (net_score metrics));
    ("ramp_up_time", JFloat (get_metric metrics "ramp_up_time"));
    ("bus_factor", JFloat (get_metric metrics "bus_factor"));
    ("performance_claims", JFloat (get_metric metrics "performance_claims"));
    ("license", JFloat (get_metric metrics "license"));
    ("size_score", JFloat (get_metric metrics "size_score"));
    ("dataset_and_code_score", JFloat (get_metric metrics "dataset_and_code_score"));
    ("dataset_quality", JFloat (get_metric metrics "dataset_quality"));
    ("code_quality", JFloat (get_metric metrics "code_quality"));
    ("latency", JInt (Z.max 1 (total_latency st))) ].

(** [write]: the writer after the call, or the exception that escapes. *)
Definition write (self : NdjsonWriter) (item : ModelItem) : result NdjsonWriter :=
  match collect self item locals0 with
  | (st, Ok _) =>
      Ok {| out := out self ++ [EvWrite (build_record item st); EvFlush];
            calc_metrics := calc_metrics self;
            perf_metric := perf_metric self |}
  | (_, Raised e) => Raised e
  end.

End Write.

(** * Notions used in the statements *)

(** ** Reading the output *)

(** The value of a key of a record. *)
Fixpoint field (key : string) (r : record) : option json :=
  match r with
  | [] => None
  | (k, v) :: r' => if decide (k = key) then Some v else field key r'
  end.

(** The record a call of [write] appended to the stream, if it did. *)
Definition emitted (before : NdjsonWriter) (after : result NdjsonWriter) : option record :=
  match after with
  | Ok w =>
      match drop (length (out before)) (out w) with
      | [EvWrite r; EvFlush] => Some r
      | _ => None
      end
  | Raised _ => None
  end.

(** The value under a key of the record a call of [write] emits. *)
Definition written_field (resolve : string -> option string) (self : NdjsonWriter)
    (item : ModelItem) (key : string) : option json :=
  rec ← emitted self (write resolve self item); field key rec.

(** The float behind a numeric field of a record. *)
Definition float_field (key : string) (r : record) : float :=
  match field key r with
  | Some (JFloat f) => f
  | _ => nan
  end.

(** The eight metric names, in the order of the blocks of [write]. *)
Definition metric_names : list string :=
  [ "ramp_up_time"; "bus_factor"; "license"; "performance_claims"; "size_score";
    "dataset_and_code_score"; "dataset_quality"; "code_quality" ].

(** ** The outcome of an evaluator and what its block makes of it *)

(** The call a block makes for a metric name: [performance_claims] goes to
    [self.perf_metric], every other name to [self.calc.metrics]. *)
Definition evaluator_call (self : NdjsonWriter) (name : string) (item : ModelItem) : outcome :=
  if decide (name = "performance_claims") then perf_metric self (model_url item)
  else calculate self name (model_url item).

(** What one block leaves in [all_metrics] under its name, and what it adds
    to [total_latency]: read off a run of the block. *)
Definition entry (self : NdjsonWriter) (name : string) (item : ModelItem) : float :=
  get_metric (all_metrics (block self name item locals0).1) name.

Definition contribution (self : NdjsonWriter) (name : string) (item : ModelItem) : Z :=
  total_latency (block self name item locals0).1.

(** Does the [try] body of a block run to its end? *)
Definition completes (self : NdjsonWriter) (name : string) (item : ModelItem) : bool :=
  match (body_of self name item locals0).2 with
  | Ok _ => true
  | Raised _ => false
  end.

(** The latency an evaluator reports: its [latency_ms], where an absent or
    zero one counts for nothing. *)
Definition reported_latency (o : outcome) : Z :=
  match o with
  | Ok (Some r) => latency_or_zero (latency_ms r)
  | _ => 0
  end.

(** The raw score of an outcome as a float, when it is a number. *)
Definition raw_score (o : outcome) : option float :=
  match o with
  | Ok (Some r) =>
      match py_float (score r) with
      | Ok f => Some f
      | Raised _ => None
      end
  | _ => None
  end.

(** The score is missing: the evaluator returned a result whose score is
    [None]. *)
Definition score_missing (o : outcome) : bool :=
  match o with
  | Ok (Some r) => match score r with PyNone => true | _ => false end
  | _ => false
  end.

(** The evaluator faulted or its score cannot be converted: it raised (or is
    not registered), returned no result object, or returned a score that
    [float()] rejects. *)
Definition faulty (o : outcome) : bool :=
  match o with
  | Ok (Some r) =>
      match score r with
      | PyNone => false
      | s => match py_float s with Ok _ => false | Raised _ => true end
      end
  | _ => true
  end.

(** [float()] accepts the raw score, and the float it gives is at least
    [0.5]. *)
Definition float_ge_half (o : outcome) : bool :=
  match raw_score o with
  | Some f => PrimFloat.leb 0.5 f
  | None => false
  end.



(** ** The latency total *)

(** The latency a block counts: what the evaluator reports when the body of
    the block runs to its end, nothing when it raises. *)
Definition counted_latency (self : NdjsonWriter) (item : ModelItem) (name : string) : Z :=
  if completes self name item
  then reported_latency (evaluator_call self name item)
  else 0.

(** The same, read off the outcome alone. *)
Definition latency_unless_faulty (self : NdjsonWriter) (item : ModelItem) (name : string) : Z :=
  if faulty (evaluator_call self name item)
  then 0
  else reported_latency (evaluator_call self name item).

(** The sum of a list of integers. *)
Definition sumZ (l : list Z) : Z := foldr Z.add 0 l.

(** ** The locals after the eight blocks *)

(** The locals that the eight blocks leave. *)
Definition final_metrics (self : NdjsonWriter) (item : ModelItem) : gmap string float :=
  fold_left (fun m name => <[name := entry self name item]> m) metric_names ∅.

Definition final_latency (self : NdjsonWriter) (item : ModelItem) : Z :=
  fold_left (fun n name => n + contribution self name item) metric_names 0.

Definition final_locals (self : NdjsonWriter) (item : ModelItem) : locals :=
  {| all_metrics := final_metrics self item; total_latency := final_latency self item |}.

(** ** The formula of the specification *)

(** The rows of the weight table whose metric is bound in [metrics]. *)
Definition present (metrics : gmap string float) : list (string * float) :=
  filter (fun mw => is_Some (metrics !! mw.1)) weights.

(** Sum of [value * weight], added up from [0.0] in the order of the table. *)
Definition weighted_sum (value : string -> float) (ws : list (string * float)) : float :=
  fold_left (fun acc mw => (acc + value mw.1 * mw.2)%float) ws 0%float.

(** Sum of the weights, added up from [0.0] in the order of the table. *)
Definition weight_sum (ws : list (string * float)) : float :=
  fold_left (fun acc mw => (acc + mw.2)%float) ws 0%float.

(** [round(sum(value * weight) / sum(weight of the metrics present), 3)],
    and [0.0] when that weight sum is not positive. *)
Definition spec_net_score (metrics : gmap string float) : float :=
  let ws := present metrics in
  if PrimFloat.ltb 0 (weight_sum ws)
  then round3 (weighted_sum (get_metric metrics) ws / weight_sum ws)
  else 0%float.

(** ** Bounds on binary64 values *)






(** The number one, decoded. *)
Definition SFone : spec_float := S754_finite false 4503599627370496 (-52).


(** A weight of the table: positive, normal, not tiny. *)
Definition good_weight (w : float) : bool :=
  match Prim2SF w with
  | S754_finite false m e => (Zpos (digits2_pos m) =? 53) && (-100 <=? e)
  | _ => false
  end.



(** ** Sample writers *)

(** The result of the example of the specification. *)
Definition sample_result : MetricResult := {| score := PyFloat 1; latency_ms := Some 10 |}.

(** An evaluator that returns a result, and one that raises. *)
Definition returns (s : pyval) (l : option Z) : evaluator :=
  fun _ => Ok (Some {| score := s; latency_ms := l |}).

Definition raises (msg : string) : evaluator :=
  fun _ => Raised (EvaluatorError msg).

(** A writer over the given evaluators that has written nothing yet. *)
Definition writer_of (metrics : list (string * evaluator)) (perf : evaluator) : NdjsonWriter :=
  {| out := []; calc_metrics := list_to_map metrics; perf_metric := perf |}.

(** The same writer with another evaluator registered under [name]. *)
Definition with_metric (name : string) (ev : evaluator) (w : NdjsonWriter) : NdjsonWriter :=
  {| out := out w;
     calc_metrics := <[name := ev]> (calc_metrics w);
     perf_metric := perf_metric w |}.

(** The artifact of the example of the specification. *)
Definition bert : ModelItem :=
  {| model_url := "https://huggingface.co/bert-base-uncased" |}.

(** A resolver that finds nothing, and one that returns the empty string. *)
Definition no_identifier : string -> option string := fun _ => None.
Definition empty_identifier : string -> option string := fun _ => Some EmptyString.

(** Every evaluator returns score [1.0] and latency [10]. *)
Definition all_ones : NdjsonWriter :=
  writer_of (map (fun name => (name, returns (PyFloat 1) (Some 10))) metric_names)
            (returns (PyFloat 1) (Some 10)).

(** As [all_ones], but the [license] evaluator raises. *)
Definition license_raises : NdjsonWriter :=
  with_metric "license" (raises "boom") all_ones.

(** As [all_ones], but [ramp_up_time] could not be computed: its score is
    [None], and the attempt took 10 ms. *)
Definition missing_ramp_up : NdjsonWriter :=
  with_metric "ramp_up_time" (returns PyNone (Some 10)) all_ones.

(** As [all_ones], but the score of [dataset_quality] is an object that is
    not a number; its latency is 10 ms. *)
Definition mistyped_quality : NdjsonWriter :=
  with_metric "dataset_quality" (returns PyObj (Some 10)) all_ones.


(** As [all_ones], but the score of [ramp_up_time] is a NaN. *)
Definition not_a_number : NdjsonWriter :=
  with_metric "ramp_up_time" (returns (PyFloat nan) (Some 10)) all_ones.

(** ** Notions used in the further properties *)

(** The blocks of the given metric names, one after the other. *)
Definition run_blocks (self : NdjsonWriter) (item : ModelItem) (names : list string) : M unit :=
  foldr (fun name rest => block self name item;; rest) (mret tt) names.

(** Is one of the eight metrics bound? *)
Definition any_metric_bound (metrics : gmap string float) : bool :=
  existsb (fun name => bool_decide (is_Some (metrics !! name))) metric_names.


(** Not a finite number: a NaN or an infinity. *)
Definition nonfinite (x : spec_float) : bool :=
  match x with
  | S754_nan | S754_infinity _ => true
  | _ => false
  end.

(** A writer with no evaluator registered, whose claims evaluator raises. *)
Definition nothing_works : NdjsonWriter := writer_of [] (raises "boom").

(** ** Exceptions that [except Exception] does not catch *)

(** The built-in exceptions that derive from [BaseException] but not from
    [Exception]. *)
Inductive interrupt : Type :=
  | KeyboardInterrupt
  | SystemExit
  | GeneratorExit.

(** What [evaluator.calculate(url)] may do when these are counted too: raise
    one of them, or end in an [outcome]. *)
Inductive call : Type :=
  | Interrupts (s : interrupt)
  | Gives (o : outcome).

Definition raw_evaluator : Type := string -> call.

(** What a statement may do then: run to its end, or let such an exception
    pass. *)
Inductive interruptible (A : Type) : Type :=
  | Completed (a : A)
  | Interrupted (s : interrupt).
Arguments Completed {A} a.
Arguments Interrupted {A} s.

(** The writer object over such evaluators. *)
Record RawWriter : Type := {
  raw_out : list event;
  raw_metrics : gmap string raw_evaluator;
  raw_perf : raw_evaluator
}.

(** The call a block makes for a metric name, as [evaluator_call]; a name
    that is not registered is a [KeyError]. *)
Definition raw_call (self : RawWriter) (name : string) (item : ModelItem) : call :=
  if decide (name = "performance_claims") then raw_perf self (model_url item)
  else match raw_metrics self !! name with
       | Some ev => ev (model_url item)
       | None => Gives (Raised KeyError)
       end.

(** A writer whose evaluator for [name] has the outcome [o]. *)
Definition answering (name : string) (o : outcome) : NdjsonWriter :=
  {| out := []; calc_metrics := {[ name := fun _ => o ]}; perf_metric := fun _ => o |}.

(** One block.  The call of the evaluator is the first statement of the
    [try] body.  When it raises an exception that is not an [Exception], the
    clause [except Exception] does not apply: the handler does not run and
    the exception leaves the block.  Otherwise the block goes on as [block]
    does with the outcome of the call. *)
Definition raw_block (self : RawWriter) (name : string) (item : ModelItem) (st : locals)
    : interruptible locals :=
  match raw_call self name item with
  | Interrupts s => Interrupted s
  | Gives o => Completed (block (answering name o) name item st).1
  end.

(** The blocks of the given names in sequence; an exception that leaves a
    block leaves the sequence. *)
Fixpoint raw_blocks (self : RawWriter) (item : ModelItem) (names : list string)
    (st : locals) : interruptible locals :=
  match names with
  | [] => Completed st
  | name :: rest =>
      match raw_block self name item st with
      | Completed st' => raw_blocks self item rest st'
      | Interrupted s => Interrupted s
      end
  end.

(** [write] over such evaluators: the eight blocks in the order of the
    source, then the record, the line and the flush; an exception that leaves
    a block leaves [write] before anything is written. *)
Definition raw_write (resolve : string -> option string) (self : RawWriter)
    (item : ModelItem) : interruptible RawWriter :=
  match raw_blocks self item metric_names locals0 with
  | Completed st =>
      Completed {| raw_out := raw_out self ++ [EvWrite (build_record resolve item st); EvFlush];
                   raw_metrics := raw_metrics self;
                   raw_perf := raw_perf self |}
  | Interrupted s => Interrupted s
  end.

(** A writer whose evaluators raise nothing but [Exception]s, seen as a
    writer over evaluators that might. *)
Definition widen (self : NdjsonWriter) : RawWriter :=
  {| raw_out := out self;
     raw_metrics := (fun (ev : evaluator) url => Gives (ev url)) <$> calc_metrics self;
     raw_perf := fun url => Gives (perf_metric self url) |}.


(** ** The claims score as the specification words it *)

(** The words of the specification: the raw score is a number, and that
    number is at least 0.5. *)
Definition spec_number_ge_half (v : pyval) : bool :=
  match v with
  | PyFloat f => PrimFloat.leb 0.5 f
  | PyInt n => 1 <=? n
  | _ => false
  end.

(** As [all_ones], but the claims evaluator scores the int [2^1024], which
    is too large for a float. *)
Definition huge_claim : NdjsonWriter :=
  {| out := [];
     calc_metrics := calc_metrics all_ones;
     perf_metric := returns (PyInt (2 ^ 1024)) (Some 10) |}.

(** * Properties *)

(** ** Running the blocks *)

Ltac run_block :=
  unfold block, body_of, guarded_body, license_body, performance_claims_body,
    try_except, set_metric, add_latency, lift, mbind, mret, M_bind, M_ret,
    get_score, get_latency_ms; simpl.

Ltac split_outcome o :=
  let s := fresh "s" in
  let l := fresh "l" in
  let e := fresh "e" in
  destruct o as [[[s l] |] | e]; [ destruct s | | ]; simpl;
  try match goal with |- context [of_int ?n] => destruct (of_int n) end; simpl.

(** A block never raises; it binds its own key and touches no other. *)
Lemma block_run (self : NdjsonWriter) (name : string) (item : ModelItem) (st : locals) :
  block self name item st =
    ({| all_metrics := <[name := entry self name item]> (all_metrics st);
        total_latency := total_latency st + contribution self name item |}, Ok tt).
Proof.
  unfold entry, contribution, get_metric. run_block.
  destruct (decide (name = "license")) as [-> | Hl];
    [ | destruct (decide (name = "performance_claims")) as [-> | Hp] ]; simpl.
  - split_outcome (calculate self "license" (model_url item));
      rewrite ?lookup_insert_eq; simpl; rewrite ?Z.add_0_r, ?insert_insert_eq; reflexivity.
  - split_outcome (perf_metric self (model_url item));
      rewrite ?lookup_insert_eq; simpl; rewrite ?Z.add_0_r, ?insert_insert_eq; reflexivity.
  - split_outcome (calculate self name (model_url item));
      rewrite ?lookup_insert_eq; simpl; rewrite ?Z.add_0_r, ?insert_insert_eq; reflexivity.
Qed.

Lemma collect_blocks (self : NdjsonWriter) (item : ModelItem) :
  collect self item =
    (block self "ramp_up_time" item;; block self "bus_factor" item;;
     block self "license" item;; block self "performance_claims" item;;
     block self "size_score" item;; block self "dataset_and_code_score" item;;
     block self "dataset_quality" item;; block self "code_quality" item).
Proof. reflexivity. Qed.

Lemma collect_run (self : NdjsonWriter) (item : ModelItem) :
  collect self item locals0 = (final_locals self item, Ok tt).
Proof.
  rewrite collect_blocks. unfold mbind, M_bind.
  rewrite !block_run. reflexivity.
Qed.

Lemma metric_names_cases (name : string) (P : string -> Prop) :
  name ∈ metric_names ->
  P "ramp_up_time" -> P "bus_factor" -> P "license" -> P "performance_claims" ->
  P "size_score" -> P "dataset_and_code_score" -> P "dataset_quality" ->
  P "code_quality" -> P name.
Proof.
  unfold metric_names. rewrite !elem_of_cons, elem_of_nil.
  intros [-> | [-> | [-> | [-> | [-> | [-> | [-> | [-> | []]]]]]]]]; auto.
Qed.

Ltac in_names := unfold metric_names; rewrite !elem_of_cons; auto 10.

Lemma final_metrics_lookup (self : NdjsonWriter) (item : ModelItem) (name : string) :
  name ∈ metric_names ->
  final_metrics self item !! name = Some (entry self name item).
Proof.
  intros Hin. pattern name. apply (metric_names_cases name); [exact Hin | ..];
    unfold final_metrics; simpl; by simplify_map_eq.
Qed.

Lemma final_metrics_get (self : NdjsonWriter) (item : ModelItem) (name : string) :
  name ∈ metric_names ->
  get_metric (final_metrics self item) name = entry self name item.
Proof. intros Hin. unfold get_metric. by rewrite final_metrics_lookup. Qed.

Lemma write_run (resolve : string -> option string) (self : NdjsonWriter) (item : ModelItem) :
  write resolve self item =
    Ok {| out := out self ++ [EvWrite (build_record resolve item (final_locals self item)); EvFlush];
          calc_metrics := calc_metrics self;
          perf_metric := perf_metric self |}.
Proof. unfold write. by rewrite collect_run. Qed.

Lemma emitted_write (resolve : string -> option string) (self : NdjsonWriter) (item : ModelItem) :
  emitted self (write resolve self item) =
    Some (build_record resolve item (final_locals self item)).
Proof. rewrite write_run. unfold emitted. simpl. by rewrite drop_app_length. Qed.

Lemma written_field_run (resolve : string -> option string) (self : NdjsonWriter)
    (item : ModelItem) (key : string) :
  written_field resolve self item key =
    field key (build_record resolve item (final_locals self item)).
Proof. unfold written_field. by rewrite emitted_write. Qed.

Lemma field_metric (resolve : string -> option string) (self : NdjsonWriter) (item : ModelItem)
    (name : string) :
  name ∈ metric_names ->
  field name (build_record resolve item (final_locals self item)) =
    Some (JFloat (entry self name item)).
Proof.
  intros Hin. pattern name. apply (metric_names_cases name); [exact Hin | ..];
    simpl; by rewrite final_metrics_get by in_names.
Qed.

(** ** What a block leaves, by the outcome of its evaluator *)

Ltac by_name name :=
  unfold entry, contribution, completes, evaluator_call, get_metric; run_block;
  destruct (decide (name = "license")) as [-> | ?];
    [ | destruct (decide (name = "performance_claims")) as [-> | ?] ]; simpl.

Ltac by_outcome :=
  match goal with
  | |- context [calculate ?self ?name ?url] => split_outcome (calculate self name url)
  | |- context [perf_metric ?self ?url] => split_outcome (perf_metric self url)
  end;
  rewrite ?lookup_insert_eq; simpl.

(** Every metric but [performance_claims]: the raw score rounded to three
    decimals, or [0.0] when there is no number to round. *)
Lemma entry_rounded (self : NdjsonWriter) (name : string) (item : ModelItem) :
  name <> "performance_claims" ->
  entry self name item =
    match raw_score (evaluator_call self name item) with
    | Some f => round3 f
    | None => 0%float
    end.
Proof.
  intros Hne. unfold raw_score. by_name name; try done; by_outcome; reflexivity.
Qed.

(** [performance_claims]: the raw score thresholded at [0.5]. *)
Lemma entry_thresholded (self : NdjsonWriter) (item : ModelItem) :
  entry self "performance_claims" item =
    match raw_score (evaluator_call self "performance_claims" item) with
    | Some f => if PrimFloat.leb 0.5 f then 1%float else 0%float
    | None => 0%float
    end.
Proof.
  unfold raw_score, entry, evaluator_call, get_metric. run_block.
  by_outcome; reflexivity.
Qed.

(** A block adds the reported latency when its body runs to the end, and
    nothing otherwise. *)
Lemma contribution_completes (self : NdjsonWriter) (name : string) (item : ModelItem) :
  contribution self name item =
    if completes self name item
    then reported_latency (evaluator_call self name item)
    else 0.
Proof.
  unfold reported_latency. by_name name; by_outcome; reflexivity.
Qed.

(** When the body of a block runs to its end. *)
Lemma completes_cases (self : NdjsonWriter) (name : string) (item : ModelItem) :
  completes self name item =
    let o := evaluator_call self name item in
    if decide (name = "license") then negb (faulty o) && negb (score_missing o)
    else if decide (name = "performance_claims")
         then match o with Ok None => true | _ => negb (faulty o) end
         else negb (faulty o).
Proof.
  unfold faulty, score_missing. by_name name; try done; by_outcome; reflexivity.
Qed.

Lemma fold_left_add_sumZ {A : Type} (f : A -> Z) (l : list A) (n : Z) :
  fold_left (fun acc a => acc + f a) l n = n + sumZ (map f l).
Proof.
  revert n. induction l as [| a l IH]; intros n; simpl.
  - lia.
  - rewrite IH. lia.
Qed.

Lemma final_latency_sum (self : NdjsonWriter) (item : ModelItem) :
  final_latency self item = sumZ (map (fun name => contribution self name item) metric_names).
Proof. unfold final_latency. by rewrite fold_left_add_sumZ. Qed.

(** ** The net score *)

(** The loop of [write] skips the metrics that are absent: it adds up over
    the metrics present. *)
Lemma weigh_present (metrics : gmap string float) (ws : list (string * float))
    (acc : float * float) :
  fold_left (weigh metrics) ws acc =
    (fold_left (fun a mw => (a + get_metric metrics mw.1 * mw.2)%float)
       (filter (fun mw => is_Some (metrics !! mw.1)) ws) acc.1,
     fold_left (fun a mw => (a + mw.2)%float)
       (filter (fun mw => is_Some (metrics !! mw.1)) ws) acc.2).
Proof.
  revert acc. induction ws as [| mw ws IH]; intros [net total]; simpl.
  - reflexivity.
  - rewrite IH. unfold weigh at 1 2. rewrite filter_cons.
    destruct (metrics !! mw.1) as [v |] eqn:Hv.
    + rewrite decide_True by eauto. simpl. unfold get_metric. by rewrite Hv.
    + rewrite decide_False by (intros [? ?]; done). reflexivity.
Qed.

Lemma net_score_spec (metrics : gmap string float) :
  net_score metrics = spec_net_score metrics.
Proof.
  unfold net_score, spec_net_score, weighted_sums, weighted_sum, weight_sum, present.
  rewrite weigh_present. reflexivity.
Qed.

Lemma present_all (metrics : gmap string float) :
  (forall name, name ∈ metric_names -> is_Some (metrics !! name)) ->
  present metrics = weights.
Proof.
  intros Hall. unfold present, weights.
  repeat (rewrite filter_cons, decide_True by (apply Hall; in_names)).
  reflexivity.
Qed.

Lemma weight_sum_weights : weight_sum weights = 1%float.
Proof. reflexivity. Qed.

Lemma final_metrics_present (self : NdjsonWriter) (item : ModelItem) :
  present (final_metrics self item) = weights.
Proof.
  apply present_all. intros name Hin. rewrite final_metrics_lookup by done. eauto.
Qed.

Lemma weighted_sum_ext (f g : string -> float) (ws : list (string * float)) :
  (forall mw, mw ∈ ws -> f mw.1 = g mw.1) ->
  weighted_sum f ws = weighted_sum g ws.
Proof.
  unfold weighted_sum. generalize 0%float.
  induction ws as [| mw ws IH]; intros acc Hfg; simpl.
  - reflexivity.
  - rewrite (Hfg mw) by apply list_elem_of_here.
    apply IH. intros mw' Hin. apply Hfg. by apply list_elem_of_further.
Qed.

Lemma weights_names (mw : string * float) : mw ∈ weights -> mw.1 ∈ metric_names.
Proof.
  unfold weights. rewrite !elem_of_cons, elem_of_nil.
  intros [-> | [-> | [-> | [-> | [-> | [-> | [-> | [-> | []]]]]]]]]; simpl; in_names.
Qed.

Lemma float_field_metric (resolve : string -> option string) (self : NdjsonWriter)
    (item : ModelItem) (name : string) :
  name ∈ metric_names ->
  float_field name (build_record resolve item (final_locals self item)) = entry self name item.
Proof. intros Hin. unfold float_field. by rewrite field_metric. Qed.

(** C1. [net_score] is the formula of the specification: the rounded quotient
    of the weighted sum by the weight sum over the metrics present, with the
    weights of the table, and [0.0] when that weight sum is not positive; in
    every emitted record [NET_SCORE] is that quotient taken over its eight
    metric fields. *)
Theorem C1_net_score_formula (resolve : string -> option string) (self : NdjsonWriter)
    (item : ModelItem) :
  weights =
    [ ("ramp_up_time", 0.15%float); ("bus_factor", 0.10%float);
      ("performance_claims", 0.15%float); ("license", 0.15%float);
      ("size_score", 0.15%float); ("dataset_and_code_score", 0.10%float);
      ("dataset_quality", 0.10%float); ("code_quality", 0.10%float) ] /\
  (forall metrics : gmap string float,
     net_score metrics =
       if PrimFloat.ltb 0 (weight_sum (present metrics))
       then round3 (weighted_sum (get_metric metrics) (present metrics)
                    / weight_sum (present metrics))
       else 0%float) /\
  exists rec : record,
    emitted self (write resolve self item) = Some rec /\
    field "NET_SCORE" rec =
      Some (JFloat (round3 (weighted_sum (fun name => float_field name rec) weights
                            / weight_sum weights))).
Proof.
  split; [reflexivity |]. split; [apply net_score_spec |].
  eexists. split; [apply emitted_write |].
  cbn [build_record field]. rewrite decide_False by done. rewrite decide_False by done.
  rewrite decide_True by done. apply (f_equal (fun f => Some (JFloat f))).
  cbn [final_locals all_metrics].
  rewrite net_score_spec. unfold spec_net_score.
  rewrite final_metrics_present, weight_sum_weights.
  change (PrimFloat.ltb 0 1) with true. cbv iota.
  apply (f_equal (fun x => round3 (x / 1))).
  apply weighted_sum_ext. intros mw Hin. apply weights_names in Hin.
  rewrite final_metrics_get by done.
  symmetry. by apply float_field_metric.
Qed.

(** ** Faults are absorbed *)





(** ** The binary performance-claims signal *)

(** C3 fails for a score that is a number but that [float()] rejects: the
    int [2^1024] is at least 0.5, [float()] raises [OverflowError] on it, and
    the field is [0.0]. *)
Lemma C3_huge_int_score :
  evaluator_call huge_claim "performance_claims" bert
    = Ok (Some {| score := PyInt (2 ^ 1024); latency_ms := Some 10 |}) /\
  spec_number_ge_half (PyInt (2 ^ 1024)) = true /\
  written_field no_identifier huge_claim bert "performance_claims" = Some (JFloat 0).
Proof. repeat split; vm_compute; reflexivity. Qed.

(** C3, as amended.  Whatever the performance-claims evaluator does, the
    field is [1.0] when [float()] accepts its raw score and the float is at
    least [0.5], and [0.0] otherwise; it is never another value. *)
Theorem C3_performance_claims_binary (resolve : string -> option string)
    (self : NdjsonWriter) (item : ModelItem) :
  exists rec : record,
    emitted self (write resolve self item) = Some rec /\
    field "performance_claims" rec =
      Some (JFloat (if float_ge_half (perf_metric self (model_url item))
                    then 1%float else 0%float)) /\
    (field "performance_claims" rec = Some (JFloat 1) \/
     field "performance_claims" rec = Some (JFloat 0)).
Proof.
  eexists. split; [apply emitted_write |].
  rewrite field_metric by in_names. rewrite entry_thresholded.
  unfold float_ge_half, evaluator_call. simpl.
  destruct (raw_score (perf_metric self (model_url item))) as [f |]; [| by auto].
  destruct (PrimFloat.leb 0.5 f); auto.
Qed.

(** ** The shape of the record *)

(** C9. Every emitted record has exactly the twelve keys of the schema, in
    the order of the schema, and its category is the constant ["MODEL"]. *)
Theorem C9_record_schema (resolve : string -> option string) (self : NdjsonWriter)
    (item : ModelItem) :
  exists rec : record,
    emitted self (write resolve self item) = Some rec /\
    map fst rec =
      [ "name"; "category"; "NET_SCORE"; "ramp_up_time"; "bus_factor";
        "performance_claims"; "license"; "size_score"; "dataset_and_code_score";
        "dataset_quality"; "code_quality"; "latency" ] /\
    field "category" rec = Some (JStr "MODEL").
Proof.
  eexists. split; [apply emitted_write |]. split; reflexivity.
Qed.

(** ** The name of the artifact *)

(** C8 fails for a resolver that returns the empty string: the name is the
    URL, not the identifier returned. *)
Lemma C8_empty_identifier :
  empty_identifier (model_url bert) = Some EmptyString /\
  written_field empty_identifier all_ones bert "name" = Some (JStr (model_url bert)) /\
  written_field empty_identifier all_ones bert "name" <> Some (JStr EmptyString).
Proof. split; [reflexivity |]. split; [reflexivity | discriminate]. Qed.

(** C8, as amended.  The name is the identifier the resolver returns when
    that is a non-empty string, and the raw URL when the resolver returns
    nothing or the empty string. *)
Theorem C8_name_or_url (resolve : string -> option string) (self : NdjsonWriter)
    (item : ModelItem) :
  exists rec : record,
    emitted self (write resolve self item) = Some rec /\
    field "name" rec =
      Some (JStr (match resolve (model_url item) with
                  | Some id => if decide (id = EmptyString) then model_url item else id
                  | None => model_url item
                  end)).
Proof.
  eexists. split; [apply emitted_write |].
  cbn [build_record field]. rewrite decide_True by done.
  by destruct (resolve (model_url item)) as [[| c id] |].
Qed.

(** ** Evaluators that return a number *)

Lemma completes_number (self : NdjsonWriter) (name : string) (item : ModelItem) (f : float) :
  raw_score (evaluator_call self name item) = Some f ->
  completes self name item = true.
Proof.
  rewrite completes_cases. cbv zeta. unfold raw_score, faulty, score_missing.
  destruct (evaluator_call self name item) as [[[s l] |] | e]; simpl; try done.
  destruct s as [| g | n |]; simpl; try done;
    repeat case_decide; try done.
  all: destruct (of_int n); done.
Qed.

Lemma contribution_number (self : NdjsonWriter) (name : string) (item : ModelItem) (f : float) :
  raw_score (evaluator_call self name item) = Some f ->
  contribution self name item = reported_latency (evaluator_call self name item).
Proof.
  intros Hraw. by rewrite contribution_completes, (completes_number _ _ _ f).
Qed.

(** C7. When the eight evaluators all succeed with score [1.0] and latency
    [10], the emitted record has [NET_SCORE] [1.0], latency [80] and
    [performance_claims] [1.0]. *)
Theorem C7_all_scores_one (resolve : string -> option string) (self : NdjsonWriter)
    (item : ModelItem) :
  (forall name, name ∈ metric_names ->
     evaluator_call self name item = Ok (Some sample_result)) ->
  exists rec : record,
    emitted self (write resolve self item) = Some rec /\
    field "NET_SCORE" rec = Some (JFloat 1) /\
    field "latency" rec = Some (JInt 80) /\
    field "performance_claims" rec = Some (JFloat 1).
Proof.
  intros Hall.
  assert (Hentry : forall name, name ∈ metric_names -> entry self name item = 1%float).
  { intros name Hin. destruct (decide (name = "performance_claims")) as [-> | Hne].
    - by rewrite entry_thresholded, Hall.
    - by rewrite entry_rounded, Hall. }
  assert (Hlat : forall name, name ∈ metric_names -> contribution self name item = 10).
  { intros name Hin. rewrite (contribution_number _ _ _ 1%float); by rewrite Hall. }
  eexists. split; [apply emitted_write |].
  split; [| split].
  - cbn [build_record field]. rewrite decide_False by done. rewrite decide_False by done.
    rewrite decide_True by done. apply (f_equal (fun f => Some (JFloat f))).
    cbn [final_locals all_metrics]. unfold final_metrics. cbn [fold_left metric_names].
    rewrite !Hentry by in_names. reflexivity.
  - change (field "latency" (build_record resolve item (final_locals self item)))
      with (Some (JInt (Z.max 1 (final_latency self item)))).
    rewrite final_latency_sum. cbn [map metric_names sumZ foldr].
    rewrite !Hlat by in_names. reflexivity.
  - rewrite field_metric by in_names. by rewrite Hentry by in_names.
Qed.

(** C7, at the writer whose evaluators all return [1.0] and [10]. *)
Lemma C7_all_ones :
  exists rec : record,
    emitted all_ones (write no_identifier all_ones bert) = Some rec /\
    field "NET_SCORE" rec = Some (JFloat 1) /\
    field "latency" rec = Some (JInt 80) /\
    field "performance_claims" rec = Some (JFloat 1).
Proof.
  apply (C7_all_scores_one no_identifier all_ones bert).
  intros name Hin. pattern name. apply (metric_names_cases name); [exact Hin | ..];
    reflexivity.
Defined.

(** ** All eight metrics are always collected *)

Lemma total_weight_present (metrics : gmap string float) :
  total_weight metrics = weight_sum (present metrics).
Proof.
  unfold total_weight, weighted_sums, weight_sum, present.
  by rewrite weigh_present.
Qed.

Lemma block_binds (self : NdjsonWriter) (name : string) (item : ModelItem) (st : locals) :
  (block self name item st).2 = Ok tt /\
  is_Some (all_metrics (block self name item st).1 !! name).
Proof.
  rewrite block_run. simpl. split; [done |]. rewrite lookup_insert_eq. eauto.
Qed.

Lemma final_metrics_dom (self : NdjsonWriter) (item : ModelItem) :
  dom (final_metrics self item) = list_to_set metric_names.
Proof.
  unfold final_metrics. cbn [fold_left metric_names list_to_set].
  rewrite !dom_insert_L, dom_empty_L. set_solver.
Qed.

(** C10. After the eight blocks [all_metrics] binds exactly the eight metric
    names (each block binds its name whether or not its body raised), the
    weight sum of the loop is [1.0], which is positive, and the net score is
    taken by the rounding branch. *)
Theorem C10_all_metrics_present (self : NdjsonWriter) (item : ModelItem) :
  let st := (collect self item locals0).1 in
  (forall (name : string) (st0 : locals),
     (block self name item st0).2 = Ok tt /\
     is_Some (all_metrics (block self name item st0).1 !! name)) /\
  dom (all_metrics st) = list_to_set metric_names /\
  Forall (fun name => is_Some (all_metrics st !! name)) metric_names /\
  total_weight (all_metrics st) = 1%float /\
  PrimFloat.ltb 0 (total_weight (all_metrics st)) = true /\
  net_score (all_metrics st) =
    round3 ((weighted_sums (all_metrics st)).1 / total_weight (all_metrics st)).
Proof.
  rewrite collect_run. cbn [fst final_locals all_metrics].
  assert (Htotal : total_weight (final_metrics self item) = 1%float).
  { by rewrite total_weight_present, final_metrics_present. }
  split; [intros name st0; apply block_binds |].
  split; [apply final_metrics_dom |].
  split; [| split; [exact Htotal | split]].
  - apply Forall_forall. intros name Hin. rewrite final_metrics_lookup by done. eauto.
  - by rewrite Htotal.
  - unfold net_score. unfold total_weight in *.
    destruct (weighted_sums (final_metrics self item)) as [net total].
    simpl in *. by rewrite Htotal.
Qed.

(** ** Faults, missing scores and the latency total *)

Lemma raw_score_none (o : outcome) :
  faulty o || score_missing o = true -> raw_score o = None.
Proof.
  unfold faulty, score_missing, raw_score.
  destruct o as [[[s l] |] | e]; simpl; try done.
  destruct s as [| f | n |]; simpl; try done.
  destruct (of_int n); done.
Qed.

Lemma entry_none (self : NdjsonWriter) (name : string) (item : ModelItem) :
  raw_score (evaluator_call self name item) = None ->
  entry self name item = 0%float.
Proof.
  intros Hraw. destruct (decide (name = "performance_claims")) as [-> | Hne].
  - by rewrite entry_thresholded, Hraw.
  - by rewrite entry_rounded, Hraw.
Qed.

Lemma contribution_faulty (self : NdjsonWriter) (name : string) (item : ModelItem) :
  faulty (evaluator_call self name item) = true ->
  contribution self name item = 0.
Proof.
  intros Hf. rewrite contribution_completes, completes_cases. cbv zeta.
  rewrite Hf. unfold reported_latency.
  destruct (evaluator_call self name item) as [[r |] | e]; repeat case_decide; done.
Qed.

Lemma contribution_missing (self : NdjsonWriter) (name : string) (item : ModelItem) :
  score_missing (evaluator_call self name item) = true ->
  name <> "license" ->
  contribution self name item = reported_latency (evaluator_call self name item).
Proof.
  intros Hm Hne. rewrite contribution_completes, completes_cases. cbv zeta.
  rewrite decide_False by done.
  assert (Hf : faulty (evaluator_call self name item) = false).
  { revert Hm. unfold faulty, score_missing.
    destruct (evaluator_call self name item) as [[[s l] |] | e]; try done.
    by destruct s. }
  rewrite Hf.
  destruct (evaluator_call self name item) as [[r |] | e]; by case_decide.
Qed.

(** C4 fails for a missing score: the entry is [0.0], but the latency
    reported with it is added to the total (the other seven evaluators
    report 10 ms each, and the record says 80). *)
Lemma C4_missing_score_adds_latency :
  "ramp_up_time" ∈ metric_names /\
  score_missing (evaluator_call missing_ramp_up "ramp_up_time" bert) = true /\
  all_metrics (block missing_ramp_up "ramp_up_time" bert locals0).1 !! "ramp_up_time"
    = Some 0%float /\
  total_latency locals0 = 0 /\
  total_latency (block missing_ramp_up "ramp_up_time" bert locals0).1 = 10 /\
  written_field no_identifier missing_ramp_up bert "latency" = Some (JInt 80).
Proof. split; [in_names |]. repeat split; reflexivity. Qed.

(** C4, as amended.  For each of the eight metrics: when the evaluator
    faults (it raises, is not registered, returns no result object, or
    returns a score that cannot be converted to a float) the entry is [0.0]
    and the latency total is unchanged; when the score is missing the entry
    is [0.0] as well, and for every metric but [license] the latency reported
    with it is added to the total. *)
Theorem C4_fault_or_missing_score (resolve : string -> option string) (self : NdjsonWriter)
    (name : string) (item : ModelItem) (st : locals) :
  name ∈ metric_names ->
  faulty (evaluator_call self name item) || score_missing (evaluator_call self name item)
    = true ->
  let st' := (block self name item st).1 in
  (block self name item st).2 = Ok tt /\
  all_metrics st' !! name = Some 0%float /\
  written_field resolve self item name = Some (JFloat 0) /\
  (faulty (evaluator_call self name item) = true ->
     total_latency st' = total_latency st) /\
  (score_missing (evaluator_call self name item) = true -> name <> "license" ->
     total_latency st' =
       total_latency st + reported_latency (evaluator_call self name item)).
Proof.
  intros Hin Hbad. cbv zeta. rewrite block_run. cbn [fst snd all_metrics total_latency].
  pose proof (entry_none self name item (raw_score_none _ Hbad)) as Hentry.
  split; [done |]. split; [by rewrite lookup_insert_eq, Hentry |].
  split; [| split].
  - rewrite written_field_run, field_metric by done. by rewrite Hentry.
  - intros Hf. rewrite contribution_faulty by done. lia.
  - intros Hm Hne. by rewrite contribution_missing.
Qed.

(** C4 as amended, at the writer whose [ramp_up_time] score is missing. *)
Lemma C4_missing_ramp_up :
  all_metrics (block missing_ramp_up "ramp_up_time" bert locals0).1 !! "ramp_up_time"
    = Some 0%float /\
  total_latency (block missing_ramp_up "ramp_up_time" bert locals0).1 = 0 + 10.
Proof.
  destruct (C4_fault_or_missing_score no_identifier missing_ramp_up "ramp_up_time" bert
              locals0 ltac:(in_names) eq_refl) as (_ & Hentry & _ & _ & Hlat).
  split; [exact Hentry |]. exact (Hlat eq_refl ltac:(discriminate)).
Defined.

(** ** The latency field *)

Lemma counted_unless_faulty (self : NdjsonWriter) (item : ModelItem) (name : string) :
  (name = "license" -> score_missing (evaluator_call self name item) = false) ->
  counted_latency self item name = latency_unless_faulty self item name.
Proof.
  intros Hlic. unfold counted_latency, latency_unless_faulty.
  rewrite completes_cases. cbv zeta.
  destruct (decide (name = "license")) as [-> | Hne].
  - rewrite Hlic by done.
    by destruct (faulty (evaluator_call self "license" item)).
  - case_decide.
    + destruct (evaluator_call self name item) as [[r |] | e]; try done.
      by destruct (faulty (Ok (Some r))).
    + by destruct (faulty (evaluator_call self name item)).
Qed.

Lemma map_ext_names {A : Type} (f g : string -> A) :
  (forall name, name ∈ metric_names -> f name = g name) ->
  map f metric_names = map g metric_names.
Proof.
  intros Hfg. apply map_ext_in. intros name Hin. apply Hfg. by apply list_elem_of_In.
Qed.

(** C5 fails when a latency comes with a score that is not a number: the
    eight evaluators report 10 ms each and the record says 70. *)
Lemma C5_latency_of_mistyped_score_dropped :
  sumZ (map (fun name => reported_latency (evaluator_call mistyped_quality name bert))
            metric_names) = 80 /\
  written_field no_identifier mistyped_quality bert "latency" = Some (JInt 70) /\
  written_field no_identifier mistyped_quality bert "latency" <> Some (JInt (Z.max 1 80)).
Proof. split; [reflexivity |]. split; [reflexivity | discriminate]. Qed.

(** C5, as amended.  The latency field is at least 1 and equals the sum,
    floored at 1, of the latencies reported by the evaluators whose block ran
    to its end.  Unless the [license] score is missing, these are the
    evaluators that did not fault: a latency reported together with a score
    that cannot be converted to a float is not counted. *)
Theorem C5_latency_floor (resolve : string -> option string) (self : NdjsonWriter)
    (item : ModelItem) :
  exists (rec : record) (n : Z),
    emitted self (write resolve self item) = Some rec /\
    field "latency" rec = Some (JInt n) /\
    1 <= n /\
    n = Z.max 1 (sumZ (map (counted_latency self item) metric_names)) /\
    (score_missing (evaluator_call self "license" item) = false ->
       n = Z.max 1 (sumZ (map (latency_unless_faulty self item) metric_names))).
Proof.
  exists (build_record resolve item (final_locals self item)),
         (Z.max 1 (final_latency self item)).
  split; [apply emitted_write |]. split; [reflexivity |]. split; [lia |].
  assert (Hsum : final_latency self item =
                   sumZ (map (counted_latency self item) metric_names)).
  { rewrite final_latency_sum. f_equal. apply map_ext_names. intros name _.
    apply contribution_completes. }
  split; [by rewrite Hsum |].
  intros Hlic. rewrite Hsum. do 2 f_equal. apply map_ext_names. intros name _.
  apply counted_unless_faulty. by intros ->.
Qed.

(** C5 as amended, at the writer whose evaluators all report 10 ms. *)
Lemma C5_all_ones :
  exists (rec : record) (n : Z),
    emitted all_ones (write no_identifier all_ones bert) = Some rec /\
    field "latency" rec = Some (JInt n) /\
    1 <= n /\
    n = Z.max 1 (sumZ (map (latency_unless_faulty all_ones bert) metric_names)).
Proof.
  destruct (C5_latency_floor no_identifier all_ones bert)
    as (rec & n & Hrec & Hfield & Hone & _ & Hsum).
  exists rec, n. repeat split; [exact Hrec | exact Hfield | exact Hone |].
  exact (Hsum eq_refl).
Defined.

(** ** Binary64: the digits of a mantissa *)









(** ** Binary64: shifting a mantissa right *)








(** ** Binary64: rounding does not step over a bound on the grid *)





(** ** Binary64: valid numbers, numbers between 0 and 1 *)





(** ** Binary64: sums, products and quotients below a bound *)





(** ** Rounding to three decimals *)





(** ** The same bounds on primitive floats *)














Lemma weights_good : forallb (fun mw => good_weight mw.2) weights = true.
Proof. vm_compute. reflexivity. Qed.



(** ** Every numeric field *)





(** * Further properties *)

(** ** The record depends on the evaluators only through their outcomes *)

Lemma entry_call (self self' : NdjsonWriter) (name : string) (item item' : ModelItem) :
  evaluator_call self name item = evaluator_call self' name item' ->
  entry self name item = entry self' name item'.
Proof.
  intros Hcall. destruct (decide (name = "performance_claims")) as [-> | Hne].
  - by rewrite !entry_thresholded, Hcall.
  - by rewrite !entry_rounded, Hcall.
Qed.

Lemma contribution_call (self self' : NdjsonWriter) (name : string) (item item' : ModelItem) :
  evaluator_call self name item = evaluator_call self' name item' ->
  contribution self name item = contribution self' name item'.
Proof.
  intros Hcall. by rewrite !contribution_completes, !completes_cases, Hcall.
Qed.

Lemma final_locals_call (self self' : NdjsonWriter) (item item' : ModelItem) :
  (forall name, name ∈ metric_names ->
     evaluator_call self name item = evaluator_call self' name item') ->
  final_locals self item = final_locals self' item'.
Proof.
  intros Hcalls. unfold final_locals, final_metrics, final_latency.
  cbn [fold_left metric_names].
  rewrite !(entry_call self self' _ item item') by (apply Hcalls; in_names).
  rewrite !(contribution_call self self' _ item item') by (apply Hcalls; in_names).
  reflexivity.
Qed.

(** X1. The value of a metric field depends only on the outcome of the
    evaluator of that metric: two writers whose evaluators for [name] agree
    on the artifact emit the same value under [name], whatever their other
    evaluators do. *)
Theorem metric_field_isolated (resolve resolve' : string -> option string)
    (self self' : NdjsonWriter) (item : ModelItem) (name : string) :
  name ∈ metric_names ->
  evaluator_call self name item = evaluator_call self' name item ->
  written_field resolve self item name = written_field resolve' self' item name.
Proof.
  intros Hin Hcall. rewrite !written_field_run, !field_metric by done.
  by rewrite (entry_call self self' name item item).
Qed.

(** X1, at two writers that differ in their [license] evaluator. *)
Lemma metric_field_isolated_example :
  written_field no_identifier all_ones bert "bus_factor"
    = written_field empty_identifier license_raises bert "bus_factor".
Proof.
  apply (metric_field_isolated no_identifier empty_identifier all_ones license_raises
           bert "bus_factor"); [in_names | reflexivity].
Defined.

(** X2. Two calls of [write] in a row append two lines, each followed by a
    flush, in call order; earlier output is kept, and the second record is
    the one the call would have emitted on the fresh writer. *)
Theorem write_twice (resolve : string -> option string) (self : NdjsonWriter)
    (first second : ModelItem) :
  exists (w1 w2 : NdjsonWriter) (r1 r2 : record),
    write resolve self first = Ok w1 /\
    write resolve w1 second = Ok w2 /\
    out w2 = out self ++ [EvWrite r1; EvFlush; EvWrite r2; EvFlush] /\
    emitted self (write resolve self first) = Some r1 /\
    emitted self (write resolve self second) = Some r2 /\
    emitted w1 (write resolve w1 second) = Some r2.
Proof.
  pose (r1 := build_record resolve first (final_locals self first)).
  pose (r2 := build_record resolve second (final_locals self second)).
  pose (w1 := {| out := out self ++ [EvWrite r1; EvFlush];
                 calc_metrics := calc_metrics self;
                 perf_metric := perf_metric self |}).
  assert (Hsame : final_locals w1 second = final_locals self second)
    by (by apply final_locals_call).
  exists w1,
    {| out := out w1 ++ [EvWrite r2; EvFlush];
       calc_metrics := calc_metrics w1;
       perf_metric := perf_metric w1 |}, r1, r2.
  split; [apply write_run |].
  split; [by rewrite write_run, Hsame |].
  split; [cbn [out w1]; by rewrite <- app_assoc |].
  split; [apply emitted_write |].
  split; [apply emitted_write |].
  by rewrite emitted_write, Hsame.
Qed.

(** X3. [write] takes the claims evaluator from [self.perf_metric] only: an
    evaluator registered under ["performance_claims"] in [self.calc.metrics]
    is never called, and registering one changes nothing in the record. *)
Theorem registered_claims_evaluator_ignored (resolve : string -> option string)
    (self : NdjsonWriter) (item : ModelItem) (ev : evaluator) :
  forall key : string,
    written_field resolve (with_metric "performance_claims" ev self) item key
      = written_field resolve self item key.
Proof.
  assert (Hlocals : final_locals (with_metric "performance_claims" ev self) item
                    = final_locals self item).
  { apply final_locals_call. intros name Hin. unfold evaluator_call.
    case_decide as Hname; [reflexivity |].
    unfold calculate, with_metric. cbn [calc_metrics].
    by rewrite lookup_insert_ne. }
  intros key. by rewrite !written_field_run, Hlocals.
Qed.

(** ** The order of the blocks *)

Lemma blocks_swap (self : NdjsonWriter) (item : ModelItem) (a b : string) (rest : M unit)
    (st : locals) :
  (block self a item;; block self b item;; rest) st
    = (block self b item;; block self a item;; rest) st.
Proof.
  unfold mbind, M_bind. rewrite !block_run. cbn [all_metrics total_latency].
  destruct (decide (a = b)) as [-> | Hne]; [reflexivity |].
  rewrite (insert_insert_ne (all_metrics st) a b) by done.
  by replace (total_latency st + contribution self a item + contribution self b item)
    with (total_latency st + contribution self b item + contribution self a item) by lia.
Qed.

Lemma run_blocks_cons (self : NdjsonWriter) (item : ModelItem) (name : string)
    (names : list string) (st : locals) :
  run_blocks self item (name :: names) st
    = run_blocks self item names (block self name item st).1.
Proof.
  cbn [run_blocks foldr]. unfold mbind, M_bind at 1. by rewrite block_run.
Qed.

Lemma run_blocks_names (self : NdjsonWriter) (item : ModelItem) (st : locals) :
  run_blocks self item metric_names st = collect self item st.
Proof.
  rewrite collect_blocks. unfold run_blocks. cbn [foldr metric_names].
  unfold mbind, mret, M_bind, M_ret. by rewrite !block_run.
Qed.

(** X4. The eight blocks can run in any order: every permutation of the
    blocks leaves the same [all_metrics] and the same [total_latency] as the
    order of the source, and none of them raises. *)
Theorem block_order_irrelevant (self : NdjsonWriter) (item : ModelItem)
    (names : list string) :
  names ≡ₚ metric_names ->
  run_blocks self item names locals0 = collect self item locals0.
Proof.
  intros Hperm. rewrite <- run_blocks_names.
  generalize locals0. induction Hperm as [| x l l' Hperm IH | x y l | l l' l'' _ IH1 _ IH2];
    intros st.
  - reflexivity.
  - by rewrite !run_blocks_cons, IH.
  - apply blocks_swap.
  - by rewrite IH1, IH2.
Qed.

(** X4, at the blocks in reverse order. *)
Lemma block_order_reversed :
  run_blocks all_ones bert (reverse metric_names) locals0 = collect all_ones bert locals0.
Proof.
  apply (block_order_irrelevant all_ones bert (reverse metric_names)).
  apply reverse_Permutation.
Defined.

(** ** When every evaluator faults *)

(** X5. When every evaluator faults (raises, is not registered, returns no
    result, or returns a score that cannot be converted), a record is still
    emitted: all eight metrics and [NET_SCORE] are [0.0], and the latency is
    the floor, 1. *)
Theorem all_faulty_record (resolve : string -> option string) (self : NdjsonWriter)
    (item : ModelItem) :
  (forall name, name ∈ metric_names -> faulty (evaluator_call self name item) = true) ->
  exists rec : record,
    emitted self (write resolve self item) = Some rec /\
    Forall (fun name => field name rec = Some (JFloat 0)) metric_names /\
    field "NET_SCORE" rec = Some (JFloat 0) /\
    field "latency" rec = Some (JInt 1).
Proof.
  intros Hall.
  assert (Hentry : forall name, name ∈ metric_names -> entry self name item = 0%float).
  { intros name Hin. apply entry_none, raw_score_none. by rewrite Hall. }
  assert (Hlat : forall name, name ∈ metric_names -> contribution self name item = 0).
  { intros name Hin. apply contribution_faulty. by apply Hall. }
  eexists. split; [apply emitted_write |]. split; [| split].
  - apply Forall_forall. intros name Hin. rewrite field_metric by done.
    by rewrite Hentry.
  - change (field "NET_SCORE" (build_record resolve item (final_locals self item)))
      with (Some (JFloat (net_score (final_metrics self item)))).
    unfold final_metrics. cbn [fold_left metric_names].
    rewrite !Hentry by in_names. reflexivity.
  - change (field "latency" (build_record resolve item (final_locals self item)))
      with (Some (JInt (Z.max 1 (final_latency self item)))).
    rewrite final_latency_sum. cbn [map metric_names sumZ foldr].
    rewrite !Hlat by in_names. reflexivity.
Qed.

(** X5, at a writer none of whose evaluators works. *)
Lemma all_faulty_nothing_works :
  exists rec : record,
    emitted nothing_works (write no_identifier nothing_works bert) = Some rec /\
    Forall (fun name => field name rec = Some (JFloat 0)) metric_names /\
    field "NET_SCORE" rec = Some (JFloat 0) /\
    field "latency" rec = Some (JInt 1).
Proof.
  apply (all_faulty_record no_identifier nothing_works bert).
  intros name Hin. pattern name. apply (metric_names_cases name); [exact Hin | ..];
    reflexivity.
Defined.

(** ** The name is never empty *)

(** X6. The name of a record is empty only if the URL of the artifact is. *)
Theorem name_not_empty (resolve : string -> option string) (self : NdjsonWriter)
    (item : ModelItem) :
  model_url item <> EmptyString ->
  exists s : string,
    written_field resolve self item "name" = Some (JStr s) /\ s <> EmptyString.
Proof.
  intros Hurl. rewrite written_field_run.
  cbn [build_record field]. rewrite decide_True by done.
  eexists. split; [reflexivity |].
  by destruct (resolve (model_url item)) as [[| c id] |].
Qed.

(** X6, at a resolver that returns the empty string. *)
Lemma name_not_empty_bert :
  exists s : string,
    written_field empty_identifier all_ones bert "name" = Some (JStr s) /\ s <> EmptyString.
Proof. apply (name_not_empty empty_identifier all_ones bert). discriminate. Defined.

(** ** The net score of an arbitrary map *)

Lemma fold_left_weigh_ext (m m' : gmap string float) (ws : list (string * float))
    (acc : float * float) :
  (forall mw, mw ∈ ws -> m !! mw.1 = m' !! mw.1) ->
  fold_left (weigh m) ws acc = fold_left (weigh m') ws acc.
Proof.
  revert acc. induction ws as [| mw ws IH]; intros acc Hext; [reflexivity |].
  cbn [fold_left]. unfold weigh at 2 4. rewrite (Hext mw) by apply list_elem_of_here.
  apply IH. intros mw' Hin. apply Hext. by apply list_elem_of_further.
Qed.

(** X7. The net score reads the eight weighted metrics only: binding or
    removing any other key of [all_metrics] does not change it. *)
Theorem net_score_ignores_other_keys (metrics : gmap string float) (key : string)
    (v : float) :
  key ∉ metric_names ->
  net_score (<[key := v]> metrics) = net_score metrics /\
  net_score (delete key metrics) = net_score metrics.
Proof.
  intros Hkey. unfold net_score, weighted_sums.
  split.
  - rewrite (fold_left_weigh_ext (<[key := v]> metrics) metrics); [reflexivity |].
    intros mw Hin. apply lookup_insert_ne. intros ->. by apply Hkey, weights_names.
  - rewrite (fold_left_weigh_ext (delete key metrics) metrics); [reflexivity |].
    intros mw Hin. apply lookup_delete_ne. intros ->. by apply Hkey, weights_names.
Qed.

(** X7, at a key that is not a metric. *)
Lemma net_score_ignores_latency_key :
  net_score (<["latency" := 7%float]> {["license" := 1%float]})
    = net_score {["license" := 1%float]} /\
  net_score (delete "latency" {["license" := 1%float]})
    = net_score {["license" := 1%float]}.
Proof.
  apply (net_score_ignores_other_keys {["license" := 1%float]} "latency" 7%float).
  unfold metric_names. rewrite !not_elem_of_cons. repeat split; try discriminate.
  apply not_elem_of_nil.
Defined.

Lemma present_flags (metrics : gmap string float) :
  present metrics
    = map snd (filter (fun p => p.1 = true)
                 (zip (map (fun mw => bool_decide (is_Some (metrics !! mw.1))) weights)
                      weights)).
Proof.
  unfold present. induction weights as [| mw ws IH]; [reflexivity |].
  cbn [map zip zip_with]. rewrite !filter_cons. cbn [fst].
  destruct (decide (is_Some (metrics !! mw.1))) as [Hs | Hn].
  - rewrite bool_decide_eq_true_2 by done. rewrite decide_True by done.
    cbn [map snd]. by rewrite IH.
  - rewrite bool_decide_eq_false_2 by done. rewrite decide_False by done. exact IH.
Qed.

(** X8. The weight sum of the loop is positive as soon as one of the eight
    metrics is bound, whichever it is: the branch that returns [0.0] without
    dividing is taken exactly when none of them is. *)
Theorem degenerate_branch_iff_none_bound (metrics : gmap string float) :
  PrimFloat.ltb 0 (total_weight metrics) = any_metric_bound metrics /\
  net_score metrics =
    if any_metric_bound metrics
    then round3 ((weighted_sums metrics).1 / total_weight metrics)
    else 0%float.
Proof.
  assert (Hpos : PrimFloat.ltb 0 (total_weight metrics) = any_metric_bound metrics).
  { rewrite total_weight_present, present_flags. unfold any_metric_bound.
    unfold weights, metric_names. cbn [map fst existsb].
    generalize (bool_decide (is_Some (metrics !! "ramp_up_time"))).
    generalize (bool_decide (is_Some (metrics !! "bus_factor"))).
    generalize (bool_decide (is_Some (metrics !! "performance_claims"))).
    generalize (bool_decide (is_Some (metrics !! "license"))).
    generalize (bool_decide (is_Some (metrics !! "size_score"))).
    generalize (bool_decide (is_Some (metrics !! "dataset_and_code_score"))).
    generalize (bool_decide (is_Some (metrics !! "dataset_quality"))).
    generalize (bool_decide (is_Some (metrics !! "code_quality"))).
    intros [|] [|] [|] [|] [|] [|] [|] [|]; vm_compute; reflexivity. }
  split; [exact Hpos |].
  unfold net_score. unfold total_weight in *.
  destruct (weighted_sums metrics) as [net total]. cbn [fst snd] in *.
  by rewrite Hpos.
Qed.

(** ** Three decimals *)









(** ** Scores that are not finite *)

Lemma is_finite_nonfinite (f : float) :
  PrimFloat.is_finite f = negb (nonfinite (Prim2SF f)).
Proof.
  unfold PrimFloat.is_finite, PrimFloat.is_nan, PrimFloat.is_infinity.
  rewrite !FloatAxioms.eqb_spec, FloatAxioms.abs_spec.
  change (Prim2SF infinity) with (S754_infinity false).
  destruct (Prim2SF f) as [s | s | | s m e]; [by destruct s | by destruct s | done |].
  unfold SFeqb. destruct s; simpl; rewrite Z.compare_refl, Pos.compare_cont_refl;
    reflexivity.
Qed.

Lemma round3_nonfinite (f : float) : PrimFloat.is_finite f = false -> round3 f = f.
Proof.
  rewrite is_finite_nonfinite. intros Hf. unfold round3.
  rewrite <- (SF2Prim_Prim2SF f) at 2. f_equal.
  by destruct (Prim2SF f).
Qed.

Lemma add_nonfinite (a b : float) :
  PrimFloat.is_finite a = false \/ PrimFloat.is_finite b = false ->
  PrimFloat.is_finite (a + b) = false.
Proof.
  rewrite !is_finite_nonfinite, add_spec. unfold SF64add, SFadd.
  destruct (Prim2SF a) as [sa | sa | | sa ma ea], (Prim2SF b) as [sb | sb | | sb mb eb];
    intros [Hf | Hf]; try done; by destruct sa, sb.
Qed.

Lemma mul_weight_nonfinite (v w : float) :
  PrimFloat.is_finite v = false -> good_weight w = true ->
  PrimFloat.is_finite (v * w) = false.
Proof.
  rewrite !is_finite_nonfinite, mul_spec. unfold good_weight, SF64mul, SFmul.
  destruct (Prim2SF v) as [sv | sv | | sv mv ev], (Prim2SF w) as [sw | sw | | sw mw ew];
    done.
Qed.

Lemma div_one_nonfinite (f : float) :
  PrimFloat.is_finite f = false -> PrimFloat.is_finite (f / 1) = false.
Proof.
  rewrite !is_finite_nonfinite, div_spec.
  change (Prim2SF 1) with SFone. unfold SF64div, SFdiv, SFone.
  by destruct (Prim2SF f).
Qed.

Lemma weighted_sum_nonfinite (value : string -> float) (ws : list (string * float))
    (acc : float) :
  Forall (fun mw => good_weight mw.2 = true) ws ->
  PrimFloat.is_finite acc = false \/
    Exists (fun mw => PrimFloat.is_finite (value mw.1) = false) ws ->
  PrimFloat.is_finite
    (fold_left (fun a mw => (a + value mw.1 * mw.2)%float) ws acc) = false.
Proof.
  revert acc. induction ws as [| mw ws IH]; intros acc Hgood Hbad; cbn [fold_left].
  - destruct Hbad as [Hacc | Hex]; [exact Hacc | by apply Exists_nil in Hex].
  - apply Forall_cons in Hgood as [Hw Hgood]. apply IH; [exact Hgood |].
    destruct Hbad as [Hacc | Hex].
    + left. apply add_nonfinite. by left.
    + apply Exists_cons in Hex as [Hv | Hex]; [| by right].
      left. apply add_nonfinite. right. by apply mul_weight_nonfinite.
Qed.

Lemma weights_cover (name : string) :
  name ∈ metric_names -> exists w : float, (name, w) ∈ weights.
Proof.
  intros Hin. pattern name. apply (metric_names_cases name); [exact Hin | ..];
    eexists; unfold weights; rewrite !elem_of_cons; auto 10.
Qed.

(** X10. A raw score that is a NaN or an infinity is not filtered: for every
    metric but [performance_claims] it is emitted as it is, and [NET_SCORE]
    is then not a finite number either, whatever the other scores are. *)
Theorem nonfinite_score_propagates (resolve : string -> option string)
    (self : NdjsonWriter) (item : ModelItem) (name : string) (f : float) :
  name ∈ metric_names -> name <> "performance_claims" ->
  raw_score (evaluator_call self name item) = Some f ->
  PrimFloat.is_finite f = false ->
  written_field resolve self item name = Some (JFloat f) /\
  exists ns : float,
    written_field resolve self item "NET_SCORE" = Some (JFloat ns) /\
    PrimFloat.is_finite ns = false.
Proof.
  intros Hin Hname Hraw Hf.
  assert (Hentry : entry self name item = f).
  { rewrite entry_rounded, Hraw by done. by apply round3_nonfinite. }
  split; [by rewrite written_field_run, field_metric, Hentry |].
  exists (net_score (final_metrics self item)).
  split; [by rewrite written_field_run |].
  rewrite net_score_spec. unfold spec_net_score.
  rewrite final_metrics_present, weight_sum_weights.
  change (PrimFloat.ltb 0 1) with true. cbv iota.
  rewrite round3_nonfinite; apply div_one_nonfinite.
  all: apply weighted_sum_nonfinite.
  all: try (apply Forall_forall; intros mw Hmw; pose proof weights_good as Hgood;
            rewrite forallb_forall in Hgood; apply Hgood; by apply list_elem_of_In).
  all: right; destruct (weights_cover name Hin) as [w Hw];
    apply Exists_exists; exists (name, w); split; [exact Hw |];
    cbn [fst]; by rewrite final_metrics_get, Hentry.
Qed.

(** X10, at the writer whose [ramp_up_time] score is a NaN. *)
Lemma nonfinite_score_propagates_nan :
  written_field no_identifier not_a_number bert "ramp_up_time" = Some (JFloat nan) /\
  exists ns : float,
    written_field no_identifier not_a_number bert "NET_SCORE" = Some (JFloat ns) /\
    PrimFloat.is_finite ns = false.
Proof.
  apply (nonfinite_score_propagates no_identifier not_a_number bert "ramp_up_time" nan);
    [in_names | discriminate | reflexivity | reflexivity].
Defined.

(** ** Exceptions that are not caught *)

Lemma evaluator_call_answering (name : string) (o : outcome) (item : ModelItem) :
  evaluator_call (answering name o) name item = o.
Proof.
  unfold evaluator_call, answering, calculate. cbn [calc_metrics perf_metric].
  case_decide; [reflexivity |]. by rewrite lookup_singleton_eq.
Qed.

Lemma block_answering (self : NdjsonWriter) (name : string) (item : ModelItem) (st : locals) :
  block (answering name (evaluator_call self name item)) name item st
    = block self name item st.
Proof.
  rewrite !block_run.
  rewrite (entry_call _ self name item item), (contribution_call _ self name item item)
    by apply evaluator_call_answering.
  reflexivity.
Qed.

Lemma raw_call_widen (self : NdjsonWriter) (name : string) (item : ModelItem) :
  raw_call (widen self) name item = Gives (evaluator_call self name item).
Proof.
  unfold raw_call, evaluator_call, calculate, widen. cbn [raw_metrics raw_perf].
  case_decide; [reflexivity |]. rewrite lookup_fmap.
  change (string -> outcome) with evaluator.
  destruct (calc_metrics self !! name); reflexivity.
Qed.

Lemma raw_blocks_widen (self : NdjsonWriter) (item : ModelItem) (names : list string)
    (st : locals) :
  raw_blocks (widen self) item names st = Completed (run_blocks self item names st).1.
Proof.
  revert st. induction names as [| name names IH]; intros st; [reflexivity |].
  cbn [raw_blocks]. unfold raw_block. rewrite raw_call_widen, block_answering, IH.
  by rewrite run_blocks_cons.
Qed.

(** With evaluators that raise nothing but [Exception]s, [raw_write] is
    [write]. *)
Lemma raw_write_widen (resolve : string -> option string) (self : NdjsonWriter)
    (item : ModelItem) :
  exists after : NdjsonWriter,
    write resolve self item = Ok after /\
    raw_write resolve (widen self) item = Completed (widen after).
Proof.
  eexists. split; [apply write_run |].
  unfold raw_write. rewrite raw_blocks_widen, run_blocks_names, collect_run.
  reflexivity.
Qed.
